(** * MSTGCN: the block and the stack of [mstgcn.py]

    A shallow embedding of
    [torch_geometric_temporal/nn/convolutional/mstgcn.py].

    The module is a composition of layers of [torch] and
    [torch_geometric]; what it adds itself is the wiring done by the two
    constructors, the control flow of the two [forward] methods and the
    names these methods read.  The embedding keeps exactly that:

    - the library is an interface ([Torch]) whose tensors, weights and
      layer applications are opaque and may raise;
    - Python objects are attribute dictionaries ([gmap string _]),
      written by [__init__] and read by [forward] through [getattr];
    - names that a method body reads without binding them are looked up
      in the globals of the module and then in the builtins, as Python
      does;
    - a call is a computation in a state-and-exception monad whose state
      holds the model instance and the log of library calls made so far. *)

From Stdlib Require Import ZArith Lia.
From stdpp Require Import gmap strings list.

Local Open Scope Z_scope.

(** ** Exceptions and results *)

Inductive exn : Type :=
| NameError (name : string)
| AttributeError (attr : string)
| IndexError
| ValueError
| TypeError
| ZeroDivisionError
| OverflowError
| RuntimeError (msg : string).

Inductive result (A : Type) : Type :=
| Ok (a : A)
| Raise (e : exn).
Arguments Ok {A} a.
Arguments Raise {A} e.

Definition is_ok {A} (r : result A) : bool :=
  match r with Ok _ => true | Raise _ => false end.

(** ** Integer arithmetic of the constructors *)

(** Python's [a / b] on integers is the exact quotient rounded to the
    nearest binary64 value, ties to even; it raises [ZeroDivisionError]
    for [b = 0] and [OverflowError] when the rounded value is beyond the
    binary64 range.  [int] then truncates towards zero. *)

(** Numerator and denominator of [a / (b * 2^e)]. *)
Definition scale (a b e : Z) : Z * Z :=
  if decide (0 ≤ e) then (a, b * 2 ^ e) else (a * 2 ^ (- e), b).

(** For positive [a] and [b], the quotient [a / b] rounded to 53
    significant bits, ties to even: a mantissa [m] with
    [2^52 <= m <= 2^53] and an exponent [e], denoting [m * 2^e].  (Below
    the normal range binary64 keeps fewer bits; such a value is below 1
    whichever way it is rounded, and truncates to 0.) *)
Definition round_quotient (a b : Z) : Z * Z :=
  let e0 := Z.log2 a - Z.log2 b - 52 in
  let e := if decide ((scale a b e0).1 / (scale a b e0).2 < 2 ^ 52)
           then e0 - 1 else e0 in
  let n := (scale a b e).1 in
  let d := (scale a b e).2 in
  let m := n / d in
  let r := n `mod` d in
  if decide (d < 2 * r ∨ (d = 2 * r ∧ Z.odd m = true))
  then (m + 1, e) else (m, e).

(** [int(m * 2^e)] for a positive value [m * 2^e]. *)
Definition truncate (m e : Z) : Z :=
  if decide (0 ≤ e) then m * 2 ^ e else m / 2 ^ (- e).

(** [int(a / b)], as line 106 computes it. *)
Definition int_truediv (a b : Z) : result Z :=
  if decide (b = 0) then Raise ZeroDivisionError
  else if decide (a = 0) then Ok 0
  else
    let me := round_quotient (Z.abs a) (Z.abs b) in
    if decide (1024 ≤ Z.log2 me.1 + me.2) then Raise OverflowError
    else Ok (Z.sgn a * Z.sgn b * truncate me.1 me.2).

(** ** Layer configurations

    What the constructors pass to [ChebConv], [nn.Conv2d] and
    [nn.LayerNorm], together with the weights the layer owns.  Unnamed
    arguments take the defaults of the library: stride 1 and padding 0. *)

Record ChebConv (W : Type) : Type := mkChebConv {
  cheb_in_channels : Z;
  cheb_out_channels : Z;
  cheb_K : Z;
  cheb_normalization : option string;
  cheb_weights : W }.

Record Conv2d (W : Type) : Type := mkConv2d {
  conv_in_channels : Z;
  conv_out_channels : Z;
  conv_kernel_size : Z * Z;     (* (height, width) *)
  conv_stride : Z * Z;
  conv_padding : Z * Z;
  conv_weights : W }.

Record LayerNorm (W : Type) : Type := mkLayerNorm {
  normalized_shape : Z;
  norm_weights : W }.

Arguments mkChebConv {W}.
Arguments cheb_in_channels {W}.
Arguments cheb_out_channels {W}.
Arguments cheb_K {W}.
Arguments cheb_normalization {W}.
Arguments cheb_weights {W}.
Arguments mkConv2d {W}.
Arguments conv_in_channels {W}.
Arguments conv_out_channels {W}.
Arguments conv_kernel_size {W}.
Arguments conv_stride {W}.
Arguments conv_padding {W}.
Arguments conv_weights {W}.
Arguments mkLayerNorm {W}.
Arguments normalized_shape {W}.
Arguments norm_weights {W}.

(** Length of one spatial axis after [nn.Conv2d] (dilation 1): an axis of
    length [L], zero-padded by [p] on both sides, is swept by a window of
    [k] positions moving [s] at a time. *)
Definition conv_out_len (L k s p : Z) : Z := (L + 2 * p - k) / s + 1.

(** The same length, or nothing where [nn.Conv2d] raises: the stride must
    be positive and the window must fit in the padded axis. *)
Definition conv_axis (L k s p : Z) : option Z :=
  if decide (0 ≤ L ∧ 0 ≤ p ∧ 0 < k ∧ 0 < s ∧ k ≤ L + 2 * p)
  then Some (conv_out_len L k s p)
  else None.

(** The least integer not below [a / b]. *)
Definition ceil_div (a b : Z) : Z := (a + b - 1) / b.

(** ** The library interface *)

Class Torch : Type := {
  tensor : Type;
  edges : Type;     (* one edge list, a [LongTensor] *)
  eigen : Type;     (* an estimate of the largest Laplacian eigenvalue *)
  weights : Type;   (* the parameter tensors owned by one layer *)
  tensor_shape : tensor → list Z;
  tensor_permute : tensor → list Z → result tensor;
  tensor_reshape : tensor → list Z → result tensor;
  tensor_index_last : tensor → Z → result tensor;    (* t[:, :, :, i] *)
  tensor_add : tensor → tensor → result tensor;
  torch_unsqueeze : tensor → Z → result tensor;
  torch_cat : list tensor → Z → result tensor;
  F_relu : tensor → result tensor;
  (* Data(edge_index, edge_attr=None, num_nodes), then
     LaplacianLambdaMax()(data).lambda_max *)
  LaplacianLambdaMax : edges → Z → result eigen;
  ChebConv_call : ChebConv weights → tensor → edges → eigen → result tensor;
  Conv2d_call : Conv2d weights → tensor → result tensor;
  LayerNorm_call : LayerNorm weights → tensor → result tensor }.

(** The [edge_index] argument: one edge list, or a Python list of them. *)
Inductive edge_index_t `{Torch} : Type :=
| Static (E : edges)
| TimeVarying (Es : list edges).

(** ** Python objects *)

(** What a global name can denote: a tensor, or an imported module, class
    or builtin, identified by its qualified name. *)
Inductive pyval `{Torch} : Type :=
| PTensor (t : tensor)
| PObject (qualname : string).

(** Attribute values of a block instance. *)
Inductive attr `{Torch} : Type :=
| AInt (z : Z)
| ACheb (c : ChebConv weights)
| AConv (c : Conv2d weights)
| ANorm (l : LayerNorm weights).

(** Attribute values of a model instance. *)
Inductive mattr `{Torch} : Type :=
| AModuleList (blocks : list (gmap string attr))
| AFinalConv (c : Conv2d weights).

(** The names bound at the top level of the module: its imports and its
    two class statements. *)
Definition module_globals `{Torch} : gmap string pyval :=
  {[ "torch" := PObject "torch";
     "nn" := PObject "torch.nn";
     "F" := PObject "torch.nn.functional";
     "Data" := PObject "torch_geometric.data.Data";
     "ChebConv" := PObject "torch_geometric.nn.ChebConv";
     "LaplacianLambdaMax" :=
       PObject "torch_geometric.transforms.LaplacianLambdaMax";
     "MSTGCNBlock" := PObject "MSTGCNBlock";
     "MSTGCN" := PObject "MSTGCN" ]}.

(** The builtin functions and constants of Python 3. *)
Definition builtins : gset string :=
  list_to_set
    [ "abs"; "aiter"; "all"; "anext"; "any"; "ascii"; "bin"; "bool";
      "breakpoint"; "bytearray"; "bytes"; "callable"; "chr";
      "classmethod"; "compile"; "complex"; "delattr"; "dict"; "dir";
      "divmod"; "enumerate"; "eval"; "exec"; "filter"; "float"; "format";
      "frozenset"; "getattr"; "globals"; "hasattr"; "hash"; "help"; "hex";
      "id"; "input"; "int"; "isinstance"; "issubclass"; "iter"; "len";
      "list"; "locals"; "map"; "max"; "memoryview"; "min"; "next";
      "object"; "oct"; "open"; "ord"; "pow"; "print"; "property"; "range";
      "repr"; "reversed"; "round"; "set"; "setattr"; "slice"; "sorted";
      "staticmethod"; "str"; "sum"; "super"; "tuple"; "type"; "vars";
      "zip"; "__import__"; "None"; "True"; "False"; "Ellipsis";
      "NotImplemented"; "__debug__" ].

(** ** Calls as computations *)

Section Interp.
Context `{Torch}.

(** The state a call runs in: the model instance the caller holds, and
    the library calls made so far, oldest first. *)
Record state : Type := mkState {
  st_model : gmap string mattr;
  st_trace : list string }.

Definition M (A : Type) : Type := state → result A * state.

#[global] Instance M_ret : MRet M := λ A a s, (Ok a, s).

#[global] Instance M_bind : MBind M := λ A B k m s,
  match m s with
  | (Ok a, s') => k a s'
  | (Raise e, s') => (Raise e, s')
  end.

Definition raise {A} (e : exn) : M A := λ s, (Raise e, s).

(** A call into the library: logged, then it returns or raises. *)
Definition call_lib {A} (name : string) (r : result A) : M A :=
  λ s, (r, mkState (st_model s) (st_trace s ++ [name])).

(** The instance a bound method is called on. *)
Definition this : M (gmap string mattr) := λ s, (Ok (st_model s), s).

(** Reading a name that the function body does not bind: globals of
    the module first, then builtins, else [NameError]. *)
Definition load_global (G : gmap string pyval) (name : string) : M pyval :=
  match G !! name with
  | Some v => mret v
  | None =>
      if decide (name ∈ builtins) then mret (PObject name)
      else raise (NameError name)
  end.

(** [self.name] *)
Definition getattr {V} (self : gmap string V) (name : string) : M V :=
  match self !! name with
  | Some v => mret v
  | None => raise (AttributeError name)
  end.

(** A value used as a tensor through its member [member]. *)
Definition as_tensor (member : string) (v : pyval) : M tensor :=
  match v with
  | PTensor t => mret t
  | PObject _ => raise (AttributeError member)
  end.

Definition as_int (a : attr) : M Z :=
  match a with AInt z => mret z | _ => raise TypeError end.

(** [a, b, c, d = shape] *)
Definition unpack4 (sh : list Z) : M (Z * Z * Z * Z) :=
  match sh with
  | [a; b; c; d] => mret (a, b, c, d)
  | _ => raise ValueError
  end.

(** [l[i]] on a Python list, for [i] drawn from a [range]. *)
Definition list_item {A} (l : list A) (i : Z) : M A :=
  match l !! Z.to_nat i with
  | Some a => mret a
  | None => raise IndexError
  end.

(** [layer(...)] for an attribute holding a layer of the given class. *)
Definition call_cheb (a : attr) (x : tensor) (E : edges) (lam : eigen)
  : M tensor :=
  match a with
  | ACheb c => call_lib "ChebConv" (ChebConv_call c x E lam)
  | _ => raise TypeError
  end.

Definition call_conv (a : attr) (x : tensor) : M tensor :=
  match a with
  | AConv c => call_lib "Conv2d" (Conv2d_call c x)
  | _ => raise TypeError
  end.

Definition call_norm (a : attr) (x : tensor) : M tensor :=
  match a with
  | ANorm l => call_lib "LayerNorm" (LayerNorm_call l x)
  | _ => raise TypeError
  end.

(** [for b in l: a = f(a, b)] *)
Fixpoint for_each {A B} (f : A → B → M A) (l : list B) (a : A) : M A :=
  match l with
  | [] => mret a
  | b :: l' => a' ← f a b; for_each f l' a'
  end.

End Interp.

(** ** class MSTGCNBlock *)

Module MSTGCNBlock.
Section Block.
Context `{Torch}.

(** The values [_reset_parameters] leaves in the parameters of the
    four layers of a block.  They are drawn at random; the draw is an
    argument of the constructor. *)
Record draw : Type := mkDraw {
  draw_cheb_conv : weights;
  draw_time_conv : weights;
  draw_residual_conv : weights;
  draw_layer_norm : weights }.

(** [__init__], lines 22-30.  Each assignment [self.name = value] writes
    one attribute.  Argument checks made inside the library constructors
    are not modelled: every configuration the library accepts is built. *)
Definition __init__ (rnd : draw)
    (in_channels K nb_chev_filter nb_time_filter time_strides : Z)
  : gmap string attr :=
  let self : gmap string attr := ∅ in
  let self :=
    <["_cheb_conv" :=
        ACheb (mkChebConv in_channels nb_chev_filter K None
                 (draw_cheb_conv rnd))]> self in
  let self :=
    <["_time_conv" :=
        AConv (mkConv2d nb_chev_filter nb_time_filter (1, 3)
                 (1, time_strides) (0, 1) (draw_time_conv rnd))]> self in
  let self :=
    <["_residual_conv" :=
        AConv (mkConv2d in_channels nb_time_filter (1, 1)
                 (1, time_strides) (0, 0) (draw_residual_conv rnd))]> self in
  let self :=
    <["_layer_norm" :=
        ANorm (mkLayerNorm nb_time_filter (draw_layer_norm rnd))]> self in
  let self := <["_nb_time_filter" := AInt nb_time_filter]> self in
  self.

(** One turn of the loop of lines 64-68, appending to [outputs]. *)
Definition time_step_body (G : gmap string pyval) (self : gmap string attr)
    (Es : list edges) (num_of_vertices : Z)
    (outputs : list tensor) (time_step : Z) : M (list tensor) :=
  (* 65 *)
  _ ← load_global G "Data";
  E ← list_item Es time_step;
  (* 66 *)
  _ ← load_global G "LaplacianLambdaMax";
  lambda_max ← call_lib "LaplacianLambdaMax"
                 (LaplacianLambdaMax E num_of_vertices);
  (* 67-68: the callee [self.cheb_conv] is evaluated before its
     arguments *)
  _ ← load_global G "torch";
  cheb_conv ← getattr self "cheb_conv";
  x ← load_global G "x" ≫= as_tensor "__getitem__";
  x_t ← call_lib "index" (tensor_index_last x time_step);
  E' ← list_item Es time_step;
  out ← call_cheb cheb_conv x_t E' lambda_max;
  out ← call_lib "unsqueeze" (torch_unsqueeze out (-1));
  mret (outputs ++ [out]).

(** Lines 53-69: the value bound to [spatial_gcn]. *)
Definition cheb_gcn (G : gmap string pyval) (self : gmap string attr)
    (edge_index : edge_index_t) : M tensor :=
  (* 53 *)
  x ← load_global G "x" ≫= as_tensor "shape";
  '(batch_size, num_of_vertices, in_channels, num_of_timesteps) ←
    unpack4 (tensor_shape x);
  (* 54 *)
  _ ← load_global G "isinstance";
  _ ← load_global G "list";
  match edge_index with
  | Static E =>
      (* 55-56 *)
      _ ← load_global G "Data";
      _ ← load_global G "LaplacianLambdaMax";
      lambda_max ← call_lib "LaplacianLambdaMax"
                     (LaplacianLambdaMax E num_of_vertices);
      (* 57 *)
      x ← load_global G "x" ≫= as_tensor "permute";
      tmp ← call_lib "permute" (tensor_permute x [2; 0; 1; 3]);
      tmp ← call_lib "reshape"
              (tensor_reshape tmp
                 [num_of_vertices; in_channels;
                  num_of_timesteps * batch_size]);
      (* 58 *)
      tmp ← call_lib "permute" (tensor_permute tmp [2; 0; 1]);
      (* 59-60 *)
      _ ← load_global G "F";
      cheb_conv ← getattr self "cheb_conv";
      output ← call_cheb cheb_conv tmp E lambda_max;
      output ← call_lib "relu" (F_relu output);
      (* 61 *)
      output ← call_lib "permute" (tensor_permute output [1; 2; 0]);
      nb_time_filter ← getattr self "nb_time_filter" ≫= as_int;
      output ← call_lib "reshape"
                 (tensor_reshape output
                    [num_of_vertices; nb_time_filter; batch_size;
                     num_of_timesteps]);
      call_lib "permute" (tensor_permute output [2; 0; 1; 3])
  | TimeVarying Es =>
      (* 63-68 *)
      _ ← load_global G "range";
      outputs ← for_each (time_step_body G self Es num_of_vertices)
                  (seqZ 0 num_of_timesteps) [];
      (* 69 *)
      _ ← load_global G "F";
      _ ← load_global G "torch";
      cat ← call_lib "cat" (torch_cat outputs (-1));
      call_lib "relu" (F_relu cat)
  end.

(** [forward], lines 39-79, with the globals of the module it is
    compiled in as a parameter.  The parameter [X] is bound and never
    read: the body reads [x]. *)
Definition forward_in (G : gmap string pyval) (self : gmap string attr)
    (X : tensor) (edge_index : edge_index_t) : M tensor :=
  spatial_gcn ← cheb_gcn G self edge_index;
  (* 72 *)
  time_conv ← getattr self "time_conv";
  t ← call_lib "permute" (tensor_permute spatial_gcn [0; 2; 1; 3]);
  time_conv_output ← call_conv time_conv t;
  (* 75 *)
  residual_conv ← getattr self "residual_conv";
  x ← load_global G "x" ≫= as_tensor "permute";
  t ← call_lib "permute" (tensor_permute x [0; 2; 1; 3]);
  x_residual ← call_conv residual_conv t;
  (* 77 *)
  layer_norm ← getattr self "layer_norm";
  _ ← load_global G "F";
  t ← call_lib "add" (tensor_add x_residual time_conv_output);
  t ← call_lib "relu" (F_relu t);
  t ← call_lib "permute" (tensor_permute t [0; 3; 2; 1]);
  t ← call_norm layer_norm t;
  x_residual ← call_lib "permute" (tensor_permute t [0; 2; 3; 1]);
  (* 79 *)
  mret x_residual.

(** The method as the module defines it. *)
Definition forward : gmap string attr → tensor → edge_index_t → M tensor :=
  forward_in module_globals.

End Block.
End MSTGCNBlock.

(** ** class MSTGCN *)

Module MSTGCN.
Section Stack.
Context `{Torch}.

Definition as_blocks (a : mattr) : M (list (gmap string attr)) :=
  match a with AModuleList l => mret l | _ => raise TypeError end.

Definition as_final_conv (a : mattr) : M attr :=
  match a with AFinalConv c => mret (AConv c) | _ => raise TypeError end.

(** [__init__], lines 98-108.  [rnd i] is the draw for block [i] and
    [rnd_final] the one for the fusion convolution. *)
Definition __init__ (rnd : nat → MSTGCNBlock.draw) (rnd_final : weights)
    (nb_block in_channels K nb_chev_filter nb_time_filter time_strides
     num_for_predict len_input : Z)
  : result (gmap string mattr) :=
  let self : gmap string mattr := ∅ in
  (* 102 *)
  let blocklist :=
    [MSTGCNBlock.__init__ (rnd 0%nat) in_channels K nb_chev_filter
       nb_time_filter time_strides] in
  (* 104 *)
  let blocklist :=
    blocklist ++
    ((λ i, MSTGCNBlock.__init__ (rnd (S i)) nb_time_filter K
             nb_chev_filter nb_time_filter 1)
       <$> seq 0 (Z.to_nat (nb_block - 1))) in
  let self := <["_blocklist" := AModuleList blocklist]> self in
  (* 106 *)
  match int_truediv len_input time_strides with
  | Raise e => Raise e
  | Ok depth =>
      let self :=
        <["_final_conv" :=
            AFinalConv (mkConv2d depth num_for_predict (1, nb_time_filter)
                          (1, 1) (0, 0) rnd_final)]> self in
      Ok self
  end.

(** [forward], lines 120-136, called on the instance held in the
    state, with the globals of the module as a parameter: the body reads
    none itself, the blocks it calls do. *)
Definition forward_in (G : gmap string pyval) (X : tensor)
    (edge_index : edge_index_t) : M tensor :=
  self ← this;
  (* 132-133 *)
  blocklist ← getattr self "_blocklist" ≫= as_blocks;
  X ← for_each (λ X block, MSTGCNBlock.forward_in G block X edge_index)
        blocklist X;
  (* 135 *)
  final_conv ← getattr self "_final_conv" ≫= as_final_conv;
  t ← call_lib "permute" (tensor_permute X [0; 3; 1; 2]);
  t ← call_conv final_conv t;
  t ← call_lib "index" (tensor_index_last t (-1));
  X ← call_lib "permute" (tensor_permute t [0; 2; 1]);
  (* 136 *)
  mret X.

(** The method as the module defines it. *)
Definition forward : tensor → edge_index_t → M tensor :=
  forward_in module_globals.

End Stack.
End MSTGCN.

(** ** The library read on shapes

    An instance of the interface in which a tensor is its shape.  Every
    operation follows the shape rule its documentation gives and raises
    where the library rejects the shapes; values are not represented, and
    [reshape] takes every size explicitly.
    It makes the model run on concrete inputs. *)

Module ShapeTorch.

Definition check (b : bool) (sh : list Z) : result (list Z) :=
  if b then Ok sh else Raise (RuntimeError "shape").

(** A possibly negative axis number, counted from the end when negative. *)
Definition axis (rank : nat) (d : Z) : option nat :=
  let r := Z.of_nat rank in
  if decide (0 ≤ d < r) then Some (Z.to_nat d)
  else if decide (- r ≤ d < 0) then Some (Z.to_nat (d + r))
  else None.

Definition product (sh : list Z) : Z := foldr Z.mul 1 sh.

Definition permute (sh dims : list Z) : result (list Z) :=
  match mapM (axis (length sh)) dims with
  | Some ds =>
      check (bool_decide (length ds = length sh ∧ NoDup ds))
        ((λ d, sh !!! d) <$> ds)
  | None => Raise IndexError
  end.

Definition reshape (sh new : list Z) : result (list Z) :=
  check (bool_decide (Forall (λ d, 0 ≤ d) new ∧ product new = product sh))
    new.

Definition index_last (sh : list Z) (i : Z) : result (list Z) :=
  match sh with
  | a :: b :: c :: n :: rest =>
      if decide (- n ≤ i < n) then Ok (a :: b :: c :: rest)
      else Raise IndexError
  | _ => Raise IndexError
  end.

(** Broadcasting, on shapes written last axis first. *)
Fixpoint broadcast_rev (a b : list Z) : option (list Z) :=
  match a, b with
  | [], _ => Some b
  | _, [] => Some a
  | x :: a', y :: b' =>
      r ← broadcast_rev a' b';
      if decide (x = y) then Some (x :: r)
      else if decide (x = 1) then Some (y :: r)
      else if decide (y = 1) then Some (x :: r)
      else None
  end.

Definition add (a b : list Z) : result (list Z) :=
  match broadcast_rev (reverse a) (reverse b) with
  | Some r => Ok (reverse r)
  | None => Raise (RuntimeError "shape")
  end.

Definition unsqueeze (sh : list Z) (d : Z) : result (list Z) :=
  match axis (S (length sh)) d with
  | Some p => Ok (take p sh ++ 1 :: drop p sh)
  | None => Raise IndexError
  end.

Definition cat (shs : list (list Z)) (d : Z) : result (list Z) :=
  match shs with
  | [] => Raise (RuntimeError "empty")
  | sh :: _ =>
      match axis (length sh) d with
      | Some p =>
          check
            (forallb (λ sh', bool_decide (length sh' = length sh
                                         ∧ take p sh' = take p sh
                                         ∧ drop (S p) sh' = drop (S p) sh))
               shs)
            (take p sh ++ foldr Z.add 0 ((λ sh', sh' !!! p) <$> shs)
               :: drop (S p) sh)
      | None => Raise IndexError
      end
  end.

Definition lambda_max (E : list (Z * Z)) (num_nodes : Z) : result unit :=
  if bool_decide (Forall (λ e, 0 ≤ e.1 < num_nodes ∧ 0 ≤ e.2 < num_nodes) E)
  then Ok () else Raise IndexError.

Definition cheb (c : ChebConv unit) (sh : list Z) (E : list (Z * Z))
    (lam : unit) : result (list Z) :=
  match reverse sh with
  | f :: n :: batch =>
      check (bool_decide (f = cheb_in_channels c ∧ 0 < cheb_K c))
        (reverse (cheb_out_channels c :: n :: batch))
  | _ => Raise (RuntimeError "shape")
  end.

Definition conv2d (c : Conv2d unit) (sh : list Z) : result (list Z) :=
  let '(kh, kw) := conv_kernel_size c in
  let '(sh_, sw) := conv_stride c in
  let '(ph, pw) := conv_padding c in
  match sh with
  | [b; ch; h; w] =>
      match conv_axis h kh sh_ ph, conv_axis w kw sw pw with
      | Some h', Some w' =>
          check (bool_decide (ch = conv_in_channels c))
            [b; conv_out_channels c; h'; w']
      | _, _ => Raise (RuntimeError "shape")
      end
  | _ => Raise (RuntimeError "shape")
  end.

Definition layer_norm (l : LayerNorm unit) (sh : list Z) : result (list Z) :=
  match reverse sh with
  | f :: _ => check (bool_decide (f = normalized_shape l)) sh
  | [] => Raise (RuntimeError "shape")
  end.

#[export] Instance shapes : Torch := {|
  tensor := list Z;
  edges := list (Z * Z);
  eigen := unit;
  weights := unit;
  tensor_shape := λ sh, sh;
  tensor_permute := permute;
  tensor_reshape := reshape;
  tensor_index_last := index_last;
  tensor_add := add;
  torch_unsqueeze := unsqueeze;
  torch_cat := cat;
  F_relu := Ok;
  LaplacianLambdaMax := lambda_max;
  ChebConv_call := cheb;
  Conv2d_call := conv2d;
  LayerNorm_call := layer_norm |}.

End ShapeTorch.

(** The scenario of the specification: [B=2], [N=5], [F_in=2],
    [T_in=12], with eight directed edges over five nodes. *)
Definition scenario_X : list Z := [2; 5; 2; 12].

Definition scenario_edges : list (Z * Z) :=
  [(0, 1); (1, 0); (1, 2); (2, 1); (2, 3); (3, 2); (3, 4); (4, 3)].

Definition unit_draw : @MSTGCNBlock.draw ShapeTorch.shapes :=
  @MSTGCNBlock.mkDraw ShapeTorch.shapes () () () ().

Definition scenario_model : result (gmap string (@mattr ShapeTorch.shapes)) :=
  @MSTGCN.__init__ ShapeTorch.shapes (λ _, unit_draw) () 2 2 3 8 8 2 3 12.

(** ** Reading the wiring off a constructed instance *)

Section Wiring.
Context `{Torch}.

(** What a block maps: input channels, output channels, time stride.
    Defined only when its layers agree with one another: the graph
    filter and the residual projection take the same channels, the graph
    filter feeds the temporal convolution, both convolutions produce the
    channels that are normalised, and both use the same stride. *)
Record signature : Type := mkSignature {
  sig_in : Z;
  sig_out : Z;
  sig_stride : Z }.

Definition signature_of (b : gmap string attr) : option signature :=
  match b !! "_cheb_conv", b !! "_time_conv", b !! "_residual_conv",
        b !! "_layer_norm" with
  | Some (ACheb g), Some (AConv t), Some (AConv r), Some (ANorm n) =>
      if decide (cheb_in_channels g = conv_in_channels r
                 ∧ cheb_out_channels g = conv_in_channels t
                 ∧ conv_out_channels t = conv_out_channels r
                 ∧ conv_out_channels t = normalized_shape n
                 ∧ conv_stride t = conv_stride r)
      then Some (mkSignature (cheb_in_channels g) (conv_out_channels t)
                   (conv_stride t).2)
      else None
  | _, _, _, _ => None
  end.

(** Time length leaving a block whose input has time length [T]: the
    width its temporal convolution produces, or nothing where that
    convolution raises. *)
Definition time_len_after (b : gmap string attr) (T : Z) : option Z :=
  match b !! "_time_conv" with
  | Some (AConv c) =>
      conv_axis T (conv_kernel_size c).2 (conv_stride c).2
        (conv_padding c).2
  | _ => None
  end.

(** Time length leaving a chain of blocks. *)
Fixpoint chain_time_len (blocks : list (gmap string attr)) (T : Z)
  : option Z :=
  match blocks with
  | [] => Some T
  | b :: blocks' => time_len_after b T ≫= chain_time_len blocks'
  end.

Definition blocklist_of (m : gmap string mattr)
  : option (list (gmap string attr)) :=
  match m !! "_blocklist" with
  | Some (AModuleList l) => Some l
  | _ => None
  end.

Definition final_conv_of (m : gmap string mattr) : option (Conv2d weights) :=
  match m !! "_final_conv" with
  | Some (AFinalConv c) => Some c
  | _ => None
  end.

(** Time length the blocks of a model produce from an input of time
    length [T]. *)
Definition model_time_len (m : gmap string mattr) (T : Z) : option Z :=
  blocklist_of m ≫= λ l, chain_time_len l T.

(** The two halves of the wiring invariant of the fusion convolution, as
    the specification words them. *)
Definition depth_is_time_len (m : gmap string mattr) (len_input : Z) : Prop :=
  conv_in_channels <$> final_conv_of m = model_time_len m len_input.

Definition kernel_height_is (m : gmap string mattr) (n : Z) : Prop :=
  (λ c, (conv_kernel_size c).1) <$> final_conv_of m = Some n.

End Wiring.

(** ** Concrete inputs *)

(** The model of the scenario, and a state holding it with no call made. *)
Definition scenario_instance : gmap string (@mattr ShapeTorch.shapes) :=
  match scenario_model with Ok m => m | Raise _ => ∅ end.

Definition scenario_state : @state ShapeTorch.shapes :=
  mkState scenario_instance [].

(** A one-block model with its input: [B=4], [N=3], [F_in=1], [T_in=6]. *)
Definition small_instance : gmap string (@mattr ShapeTorch.shapes) :=
  match @MSTGCN.__init__ ShapeTorch.shapes (λ _, unit_draw) ()
          1 1 2 4 4 1 2 6 with
  | Ok m => m
  | Raise _ => ∅
  end.

Definition small_X : list Z := [4; 3; 1; 6].

Definition small_edges : list (Z * Z) := [(0, 1); (1, 0); (1, 2); (2, 1)].

(** The scenario with stride 5, which does not divide the input length. *)
Definition stride5_model : result (gmap string (@mattr ShapeTorch.shapes)) :=
  @MSTGCN.__init__ ShapeTorch.shapes (λ _, unit_draw) () 2 2 3 8 8 5 3 12.

Definition stride5_instance : gmap string (@mattr ShapeTorch.shapes) :=
  match stride5_model with Ok m => m | Raise _ => ∅ end.

(** The two ways of passing the edges of the scenario: once, and once
    per time step. *)
Definition scenario_static : @edge_index_t ShapeTorch.shapes :=
  @Static ShapeTorch.shapes scenario_edges.

Definition scenario_per_step : @edge_index_t ShapeTorch.shapes :=
  @TimeVarying ShapeTorch.shapes (replicate 12 scenario_edges).

Definition small_static : @edge_index_t ShapeTorch.shapes :=
  @Static ShapeTorch.shapes small_edges.

Definition small_state : @state ShapeTorch.shapes :=
  mkState small_instance [].

(** A block of the scenario with time stride [s]. *)
Definition scenario_block (s : Z) : gmap string (@attr ShapeTorch.shapes) :=
  @MSTGCNBlock.__init__ ShapeTorch.shapes unit_draw 2 3 8 8 s.

(** The globals of the module extended with a binding of [x]. *)
Definition globals_with_x `{Torch} (t : tensor) : gmap string pyval :=
  <["x" := PTensor t]> module_globals.


(** ** Further readings of a constructed instance *)

Section Extent.
Context `{Torch}.

(** Height and width leaving a convolution that is fed height [h] and
    width [w], or nothing where the convolution raises. *)
Definition conv_out_hw (c : Conv2d weights) (h w : Z) : option (Z * Z) :=
  h' ← conv_axis h (conv_kernel_size c).1 (conv_stride c).1
         (conv_padding c).1;
  w' ← conv_axis w (conv_kernel_size c).2 (conv_stride c).2
         (conv_padding c).2;
  Some (h', w').

Definition time_conv_of (b : gmap string attr) : option (Conv2d weights) :=
  match b !! "_time_conv" with
  | Some (AConv c) => Some c
  | _ => None
  end.

Definition residual_conv_of (b : gmap string attr)
  : option (Conv2d weights) :=
  match b !! "_residual_conv" with
  | Some (AConv c) => Some c
  | _ => None
  end.

Definition cheb_conv_of (b : gmap string attr) : option (ChebConv weights) :=
  match b !! "_cheb_conv" with
  | Some (ACheb c) => Some c
  | _ => None
  end.

End Extent.

(** The names the body of [MSTGCNBlock.forward] reads without binding
    them, lines 53-77. *)
Definition globals_read : list string :=
  ["x"; "isinstance"; "list"; "Data"; "LaplacianLambdaMax"; "torch"; "F";
   "range"].

(** The scenario built with [nb_block = 0]. *)
Definition zero_block_model
  : result (gmap string (@mattr ShapeTorch.shapes)) :=
  @MSTGCN.__init__ ShapeTorch.shapes (λ _, unit_draw) () 0 2 3 8 8 2 3 12.

Definition zero_block_instance : gmap string (@mattr ShapeTorch.shapes) :=
  match zero_block_model with Ok m => m | Raise _ => ∅ end.

(** [setattr(b, name, getattr(b, "_" + name))]: the attribute stored
    under the underscore-prefixed name, made available under [name]
    too. *)
Definition alias `{Torch} (name : string) (b : gmap string attr)
  : gmap string attr :=
  match b !! ("_" +:+ name) with
  | Some v => <[name := v]> b
  | None => b
  end.

(** A block given the five names its [forward] reads. *)
Definition with_read_names `{Torch} (b : gmap string attr)
  : gmap string attr :=
  foldr alias b
    ["cheb_conv"; "nb_time_filter"; "time_conv"; "residual_conv";
     "layer_norm"].

(** The model of the scenario with every block given those names, in a
    module whose globals bind [x] to the input. *)
Definition aliased_blocks : list (gmap string (@attr ShapeTorch.shapes)) :=
  [@with_read_names ShapeTorch.shapes (scenario_block 2);
   @with_read_names ShapeTorch.shapes
     (@MSTGCNBlock.__init__ ShapeTorch.shapes unit_draw 8 3 8 8 1)].

Definition aliased_instance : gmap string (@mattr ShapeTorch.shapes) :=
  <["_blocklist" := AModuleList aliased_blocks]> scenario_instance.

Definition aliased_state : @state ShapeTorch.shapes :=
  mkState aliased_instance [].

Definition scenario_globals : gmap string (@pyval ShapeTorch.shapes) :=
  @globals_with_x ShapeTorch.shapes scenario_X.

(** The state in which the first of those blocks returns. *)
Definition after_first_block : @state ShapeTorch.shapes :=
  (@MSTGCNBlock.forward_in ShapeTorch.shapes scenario_globals
     (@with_read_names ShapeTorch.shapes (scenario_block 2))
     scenario_X scenario_static aliased_state).2.

(** The state in which the second one raises. *)
Definition at_second_block : @state ShapeTorch.shapes :=
  (@MSTGCNBlock.forward_in ShapeTorch.shapes scenario_globals
     (@with_read_names ShapeTorch.shapes
        (@MSTGCNBlock.__init__ ShapeTorch.shapes unit_draw 8 3 8 8 1))
     [2; 5; 8; 6] scenario_static after_first_block).2.

(** The globals of the module with one more name bound. *)
Definition globals_with_y : gmap string (@pyval ShapeTorch.shapes) :=
  <["y" := PObject "y"]> module_globals.

(** * Properties *)

(** ** Arithmetic of the convolutions *)

Lemma ceil_div_spec (a b q : Z) :
  0 < b → ceil_div a b = q ↔ b * (q - 1) < a ≤ b * q.
Proof.
  intros Hb. unfold ceil_div. split.
  - intros <-.
    pose proof (Z.div_mod (a + b - 1) b ltac:(lia)) as Hdm.
    pose proof (Z.mod_pos_bound (a + b - 1) b Hb) as Hr. nia.
  - intros [Hlo Hhi]. symmetry.
    apply (Z.div_unique _ _ _ (a + b - 1 - b * q)); lia.
Qed.

Lemma ceil_div_pos (a b : Z) : 0 < b → 1 ≤ a → 1 ≤ ceil_div a b.
Proof.
  intros Hb Ha. unfold ceil_div.
  apply Z.div_le_lower_bound; lia.
Qed.

Lemma conv_out_len_time (T s : Z) :
  0 < s → conv_out_len T 3 s 1 = ceil_div T s.
Proof.
  intros Hs. unfold conv_out_len, ceil_div.
  replace (T + 2 * 1 - 3) with (T - 1) by lia.
  replace (T + s - 1) with (T - 1 + 1 * s) by lia.
  rewrite Z.div_add by lia. reflexivity.
Qed.

Lemma conv_out_len_residual (T s : Z) :
  0 < s → conv_out_len T 1 s 0 = ceil_div T s.
Proof.
  intros Hs. unfold conv_out_len, ceil_div.
  replace (T + 2 * 0 - 1) with (T - 1) by lia.
  replace (T + s - 1) with (T - 1 + 1 * s) by lia.
  rewrite Z.div_add by lia. reflexivity.
Qed.

(** Both convolutions of a block shorten the time axis alike, which is
    what lets their outputs be added. *)
Lemma conv_branches_agree (T s : Z) :
  0 < s → conv_out_len T 3 s 1 = conv_out_len T 1 s 0.
Proof.
  intros Hs. by rewrite conv_out_len_time, conv_out_len_residual.
Qed.

Lemma conv_out_len_stride1 (T : Z) : conv_out_len T 3 1 1 = T.
Proof. unfold conv_out_len. rewrite Z.div_1_r. lia. Qed.

Lemma ceil_div_1 (a : Z) : ceil_div a 1 = a.
Proof. unfold ceil_div. rewrite Z.div_1_r. lia. Qed.

Lemma ceil_div_exact (a b : Z) :
  0 < b → 0 ≤ a → (ceil_div a b = a / b ↔ (b | a)).
Proof.
  intros Hb Ha.
  rewrite ceil_div_spec by lia.
  pose proof (Z.div_mod a b ltac:(lia)) as Hdm.
  pose proof (Z.mod_pos_bound a b Hb) as Hr.
  split.
  - intros [_ Hle]. exists (a / b). nia.
  - intros [k ->]. rewrite Z.div_mul by lia. nia.
Qed.

(** Where the temporal convolution and the residual projection accept a
    time axis, and where they raise. *)
Lemma conv_axis_time (T s : Z) :
  1 ≤ T → 1 ≤ s → conv_axis T 3 s 1 = Some (ceil_div T s).
Proof.
  intros HT Hs. unfold conv_axis. rewrite decide_True by lia.
  by rewrite conv_out_len_time by lia.
Qed.

Lemma conv_axis_residual (T s : Z) :
  1 ≤ T → 1 ≤ s → conv_axis T 1 s 0 = Some (ceil_div T s).
Proof.
  intros HT Hs. unfold conv_axis. rewrite decide_True by lia.
  by rewrite conv_out_len_residual by lia.
Qed.

Lemma conv_axis_empty (T k s p : Z) :
  T ≤ 0 → 2 * p < k → conv_axis T k s p = None.
Proof. intros HT Hk. unfold conv_axis. by rewrite decide_False by lia. Qed.

(** ** The quotient of line 106 *)

(** Below [2^52] the rounded quotient truncates to the integer
    quotient. *)
Lemma int_truediv_exact (a b : Z) :
  0 ≤ a < 2 ^ 52 → 0 < b → int_truediv a b = Ok (a / b).
Proof.
  intros [Ha0 Ha] Hb. unfold int_truediv.
  rewrite decide_False by lia.
  destruct (decide (a = 0)) as [->|Hne]; [by rewrite Z.div_0_l by lia|].
  rewrite (Z.abs_eq a), (Z.abs_eq b) by lia.
  rewrite (Z.sgn_pos a), (Z.sgn_pos b) by lia.
  assert (Z.log2 a < 52) as Hla by (apply Z.log2_lt_pow2; lia).
  pose proof (Z.log2_nonneg a) as Hla0.
  pose proof (Z.log2_nonneg b) as Hlb0.
  destruct (Z.log2_spec b Hb) as [_ Hbhi].
  unfold round_quotient.
  set (e0 := Z.log2 a - Z.log2 b - 52).
  set (e := if decide ((scale a b e0).1 / (scale a b e0).2 < 2 ^ 52)
            then e0 - 1 else e0).
  assert (e ≤ e0) as Hee0 by (subst e; case_decide; lia).
  assert (e0 - 1 ≤ e) as Hee1 by (subst e; case_decide; lia).
  assert (scale a b e = (a * 2 ^ (- e), b)) as ->.
  { unfold scale. rewrite decide_False by lia. reflexivity. }
  cbn [fst snd].
  set (P := 2 ^ (- e)).
  assert (b < P) as HP.
  { eapply Z.lt_le_trans; [exact Hbhi|].
    subst P. apply Z.pow_le_mono_r; lia. }
  assert (0 < P) as HP0 by lia.
  set (k := a / b).
  pose proof (Z.div_mod a b ltac:(lia)) as Hdm.
  pose proof (Z.mod_pos_bound a b Hb) as Hr. fold k in Hdm.
  set (m := a * P / b).
  assert (k * P ≤ m) as Hlo.
  { subst m. apply Z.div_le_lower_bound; [lia|]. nia. }
  assert (m + 1 < (k + 1) * P) as Hhi.
  { assert (m < (k + 1) * P - 1); [|lia].
    subst m. apply Z.div_lt_upper_bound; [lia|]. nia. }
  assert (0 ≤ k) as Hk0 by (subst k; apply Z.div_pos; lia).
  assert (1 ≤ m) as Hm1.
  { subst m. apply Z.div_le_lower_bound; [lia|]. nia. }
  assert (k < 2 ^ 52) as Hk.
  { subst k. apply Z.div_lt_upper_bound; [lia|]. nia. }
  assert (∀ m', m ≤ m' ≤ m + 1 →
            (if decide (1024 ≤ Z.log2 m' + e) then Raise OverflowError
             else Ok (1 * 1 * truncate m' e)) = Ok k) as Hfin.
  { intros m' Hm'. rewrite decide_False.
    - f_equal. unfold truncate. rewrite decide_False by lia. fold P.
      rewrite !Z.mul_1_l. symmetry.
      apply (Z.div_unique _ _ _ (m' - k * P)); lia.
    - assert (Z.log2 m' < 1024 - e); [|lia].
      apply Z.log2_lt_pow2; [lia|].
      replace (1024 - e) with (- e + 1024) by lia.
      rewrite Z.pow_add_r by lia. fold P.
      assert (2 ^ 52 < 2 ^ 1024) by (apply Z.pow_lt_mono_r; lia).
      nia. }
  match goal with
  | |- context [decide (b < ?x ∨ ?y)] => destruct (decide (b < x ∨ y))
  end; cbn [fst snd]; apply Hfin; lia.
Qed.

(** A quotient of at least [2^1024] in magnitude is beyond the binary64
    range. *)
Lemma int_truediv_overflow (a b : Z) :
  b ≠ 0 → 2 ^ 1024 * Z.abs b ≤ Z.abs a →
  int_truediv a b = Raise OverflowError.
Proof.
  intros Hb Hab. unfold int_truediv.
  assert (0 < 2 ^ 1024) as Hbig by (apply Z.pow_pos_nonneg; lia).
  rewrite decide_False by lia.
  rewrite decide_False by lia.
  set (A := Z.abs a) in *. set (B := Z.abs b) in *.
  assert (0 < B) as HB by lia.
  assert (0 < A) as HA by nia.
  destruct (Z.log2_spec A HA) as [HAlo HAhi].
  destruct (Z.log2_spec B HB) as [HBlo HBhi].
  pose proof (Z.log2_nonneg B) as HlB.
  assert (1024 + Z.log2 B ≤ Z.log2 A) as Hlog.
  { apply Z.log2_le_pow2; [lia|].
    rewrite Z.pow_add_r by lia. nia. }
  unfold round_quotient.
  set (e0 := Z.log2 A - Z.log2 B - 52).
  set (e := if decide ((scale A B e0).1 / (scale A B e0).2 < 2 ^ 52)
            then e0 - 1 else e0).
  assert (e ≤ e0) as Hee0 by (subst e; case_decide; lia).
  assert (e0 - 1 ≤ e) as Hee1 by (subst e; case_decide; lia).
  assert (scale A B e = (A, B * 2 ^ e)) as ->.
  { unfold scale. rewrite decide_True by lia. reflexivity. }
  cbn [fst snd].
  assert (0 < 2 ^ e) as HPe by (apply Z.pow_pos_nonneg; lia).
  set (m := A / (B * 2 ^ e)).
  assert (∀ m', m ≤ m' → 1024 ≤ Z.log2 m' + e) as Hfin.
  { intros m' Hm'.
    destruct (decide (e ≤ 1024)) as [He|He].
    - assert (1024 - e ≤ Z.log2 m'); [|lia].
      apply Z.log2_le_pow2.
      + assert (1 ≤ m); [|lia]. subst m.
        apply Z.div_le_lower_bound; [nia|]. 
        assert (2 ^ e ≤ 2 ^ 1024) by (apply Z.pow_le_mono_r; lia). nia.
      + etrans; [|exact Hm']. subst m.
        apply Z.div_le_lower_bound; [nia|].
        replace (B * 2 ^ e * 2 ^ (1024 - e)) with (2 ^ 1024 * B); [lia|].
        replace 1024 with (e + (1024 - e)) at 1 by lia.
        rewrite Z.pow_add_r by lia. lia.
    - assert (0 ≤ Z.log2 m') by apply Z.log2_nonneg. lia. }
  match goal with
  | |- context [decide (?d < ?x ∨ ?y)] => destruct (decide (d < x ∨ y))
  end; cbn [fst snd]; (rewrite decide_True; [reflexivity | apply Hfin; lia]).
Qed.

(** Beyond [2^52] the rounding shows: a tie goes to the even mantissa, a
    quotient just below 6 becomes 6, and a quotient beyond the binary64
    range raises. *)
Example int_truediv_tie : int_truediv (2 ^ 53 + 1) 1 = Ok (2 ^ 53).
Proof. vm_compute. reflexivity. Qed.

Example int_truediv_rounds_up :
  int_truediv (6 * 2 ^ 60 - 1) (2 ^ 60) = Ok 6.
Proof. vm_compute. reflexivity. Qed.

Example int_truediv_too_large : int_truediv (10 ^ 400) 1 = Raise OverflowError.
Proof. vm_compute. reflexivity. Qed.

Example int_truediv_negative : int_truediv (-7) 2 = Ok (-3).
Proof. vm_compute. reflexivity. Qed.

(** ** The name the block reads *)

Section Failure.
Context `{Torch}.

Lemma bind_ok {A B} (c : M A) (k : A → M B) s a s' :
  c s = (Ok a, s') → (c ≫= k) s = k a s'.
Proof. unfold mbind, M_bind. intros ->. reflexivity. Qed.

Lemma bind_raise {A B} (c : M A) (k : A → M B) s e s' :
  c s = (Raise e, s') → (c ≫= k) s = (Raise e, s').
Proof. unfold mbind, M_bind. intros ->. reflexivity. Qed.

(** A sequence that returns has returned at every step. *)
Lemma bind_returns {A B} (c : M A) (k : A → M B) s :
  is_ok ((c ≫= k) s).1 = true →
  ∃ a s1, c s = (Ok a, s1) ∧ is_ok (k a s1).1 = true.
Proof.
  unfold mbind, M_bind. destruct (c s) as [[a|e] s1]; simpl.
  - intros Hk. by exists a, s1.
  - discriminate.
Qed.

Lemma bind_returns_first {A B} (c : M A) (k : A → M B) s :
  is_ok ((c ≫= k) s).1 = true → is_ok (c s).1 = true.
Proof. intros (a & s1 & -> & _)%bind_returns. reflexivity. Qed.

Lemma getattr_returns {V} (self : gmap string V) name s :
  is_ok (getattr self name s).1 = true → is_Some (self !! name).
Proof.
  unfold getattr. destruct (self !! name); [by eexists | discriminate].
Qed.

Lemma x_is_unbound : module_globals !! "x" = None ∧ "x" ∉ builtins.
Proof. split; [reflexivity | vm_compute; intros Hx; discriminate Hx]. Qed.

Lemma load_x_raises s :
  load_global module_globals "x" s = (Raise (NameError "x"), s).
Proof. reflexivity. Qed.

Lemma cheb_gcn_raises self edge_index s :
  MSTGCNBlock.cheb_gcn module_globals self edge_index s
  = (Raise (NameError "x"), s).
Proof. reflexivity. Qed.

Lemma block_forward_raises self X edge_index s :
  MSTGCNBlock.forward self X edge_index s = (Raise (NameError "x"), s).
Proof. reflexivity. Qed.

Lemma for_each_raise {A B} (f : A → B → M A) pre b post a a' e s s1 s2 :
  for_each f pre a s = (Ok a', s1) →
  f a' b s1 = (Raise e, s2) →
  for_each f (pre ++ b :: post) a s = (Raise e, s2).
Proof.
  revert a s. induction pre as [|p pre IH]; intros a s Hpre Hb; simpl in *.
  - injection Hpre as -> ->. by apply bind_raise.
  - unfold mbind, M_bind in *. destruct (f a p s) as [[a1|e1] s'].
    + by apply IH.
    + discriminate.
Qed.

Lemma model_forward_raises X edge_index s b l :
  st_model s !! "_blocklist" = Some (AModuleList (b :: l)) →
  MSTGCN.forward X edge_index s = (Raise (NameError "x"), s).
Proof.
  intros Hb. unfold MSTGCN.forward, MSTGCN.forward_in, this, getattr.
  unfold mbind, M_bind. rewrite Hb. reflexivity.
Qed.

(** The instance [__init__] returns. *)
Lemma init_inv rnd rnd_final nb_block in_channels K nb_chev_filter
    nb_time_filter time_strides num_for_predict len_input m :
  MSTGCN.__init__ rnd rnd_final nb_block in_channels K nb_chev_filter
    nb_time_filter time_strides num_for_predict len_input = Ok m →
  ∃ depth,
    int_truediv len_input time_strides = Ok depth
    ∧ blocklist_of m = Some
        (MSTGCNBlock.__init__ (rnd 0%nat) in_channels K nb_chev_filter
           nb_time_filter time_strides
         :: ((λ i, MSTGCNBlock.__init__ (rnd (S i)) nb_time_filter K
                     nb_chev_filter nb_time_filter 1)
               <$> seq 0 (Z.to_nat (nb_block - 1))))
    ∧ final_conv_of m = Some
        (mkConv2d depth num_for_predict (1, nb_time_filter) (1, 1) (0, 0)
           rnd_final).
Proof.
  unfold MSTGCN.__init__.
  destruct (int_truediv len_input time_strides) as [depth|e];
    [|discriminate].
  intros [= <-]. exists depth. repeat split; reflexivity.
Qed.

End Failure.

(** ** Attributes written and attributes read *)

Section Attributes.
Context `{Torch}.

Lemma block_attributes rnd in_channels K nb_chev_filter nb_time_filter
    time_strides :
  let self := MSTGCNBlock.__init__ rnd in_channels K nb_chev_filter
                nb_time_filter time_strides in
  self !! "_cheb_conv"
    = Some (ACheb (mkChebConv in_channels nb_chev_filter K None
                     (MSTGCNBlock.draw_cheb_conv rnd)))
  ∧ self !! "_time_conv"
    = Some (AConv (mkConv2d nb_chev_filter nb_time_filter (1, 3)
                     (1, time_strides) (0, 1)
                     (MSTGCNBlock.draw_time_conv rnd)))
  ∧ self !! "_residual_conv"
    = Some (AConv (mkConv2d in_channels nb_time_filter (1, 1)
                     (1, time_strides) (0, 0)
                     (MSTGCNBlock.draw_residual_conv rnd)))
  ∧ self !! "_layer_norm"
    = Some (ANorm (mkLayerNorm nb_time_filter
                     (MSTGCNBlock.draw_layer_norm rnd)))
  ∧ self !! "_nb_time_filter" = Some (AInt nb_time_filter).
Proof. repeat split; reflexivity. Qed.

Lemma block_dom rnd in_channels K nb_chev_filter nb_time_filter time_strides :
  dom (MSTGCNBlock.__init__ rnd in_channels K nb_chev_filter nb_time_filter
         time_strides)
  = {[ "_cheb_conv"; "_time_conv"; "_residual_conv"; "_layer_norm";
       "_nb_time_filter" ]}.
Proof.
  unfold MSTGCNBlock.__init__. rewrite !dom_insert_L, dom_empty_L.
  set_solver.
Qed.

Lemma block_unprefixed_missing rnd in_channels K nb_chev_filter
    nb_time_filter time_strides name :
  name ∈ ["cheb_conv"; "nb_time_filter"; "time_conv"; "residual_conv";
          "layer_norm"] →
  let self := MSTGCNBlock.__init__ rnd in_channels K nb_chev_filter
                nb_time_filter time_strides in
  self !! name = None ∧ is_Some (self !! ("_" +:+ name)).
Proof.
  intros Hn self. rewrite !list_elem_of_In in Hn. simpl in Hn.
  destruct Hn as [<-|[<-|[<-|[<-|[<-|[]]]]]];
    (split; [reflexivity | eexists; reflexivity]).
Qed.

(** Whatever the globals bind, a block without [time_conv] returns
    nothing. *)
Lemma forward_in_never_returns G (self : gmap string attr) X edge_index s :
  self !! "time_conv" = None →
  is_ok (MSTGCNBlock.forward_in G self X edge_index s).1 = false.
Proof.
  intros Htc. unfold MSTGCNBlock.forward_in, mbind, M_bind.
  destruct (MSTGCNBlock.cheb_gcn G self edge_index s) as [[t|e] s1];
    [|reflexivity].
  unfold getattr. rewrite Htc. reflexivity.
Qed.

Tactic Notation "peel" hyp(H) "as" ident(Hc) :=
  let a := fresh "a" in
  let s := fresh "s" in
  pose proof (bind_returns_first _ _ _ H) as Hc;
  apply bind_returns in H as (a & s & _ & H).

Ltac skip H :=
  let a := fresh "a" in
  let s := fresh "s" in
  apply bind_returns in H as (a & s & _ & H).

(** The three attributes read after the graph filter, lines 72-77. *)
Lemma forward_in_reads_tail G (self : gmap string attr) X edge_index s :
  is_ok (MSTGCNBlock.forward_in G self X edge_index s).1 = true →
  is_ok (MSTGCNBlock.cheb_gcn G self edge_index s).1 = true
  ∧ is_Some (self !! "time_conv")
  ∧ is_Some (self !! "residual_conv")
  ∧ is_Some (self !! "layer_norm").
Proof.
  intros Hret. unfold MSTGCNBlock.forward_in in Hret.
  peel Hret as Hgcn. split; [exact Hgcn|].
  peel Hret as Htc. split; [by eapply getattr_returns|].
  do 2 skip Hret.
  peel Hret as Hrc. split; [by eapply getattr_returns|].
  do 3 skip Hret.
  peel Hret as Hln. by eapply getattr_returns.
Qed.

(** The two attributes the static path reads, lines 59 and 61. *)
Lemma cheb_gcn_reads_static G (self : gmap string attr) E s :
  is_ok (MSTGCNBlock.cheb_gcn G self (Static E) s).1 = true →
  is_Some (self !! "cheb_conv") ∧ is_Some (self !! "nb_time_filter").
Proof.
  intros Hret. unfold MSTGCNBlock.cheb_gcn in Hret.
  skip Hret. skip Hret.
  match goal with a : (Z * Z * Z * Z)%type |- _ =>
    destruct a as [[[B N] F] T] end.
  do 10 skip Hret.
  peel Hret as Hcheb. split; [by eapply getattr_returns|].
  do 3 skip Hret.
  peel Hret as Hnb. peel Hnb as Hg. by eapply getattr_returns.
Qed.

(** The attribute the loop reads at its first turn, line 67. *)
Lemma cheb_gcn_reads_per_step G (self : gmap string attr) Es t B N F T s :
  G !! "x" = Some (PTensor t) →
  tensor_shape t = [B; N; F; T] →
  1 ≤ T →
  is_ok (MSTGCNBlock.cheb_gcn G self (TimeVarying Es) s).1 = true →
  is_Some (self !! "cheb_conv").
Proof.
  intros HG Hsh HT Hret. unfold MSTGCNBlock.cheb_gcn in Hret.
  apply bind_returns in Hret as (x & s1 & Hx & Hret).
  assert (x = t) as ->.
  { unfold load_global, mbind, M_bind in Hx. rewrite HG in Hx.
    simpl in Hx. by injection Hx as ->. }
  clear Hx. rewrite Hsh in Hret.
  apply bind_returns in Hret as (sh & s2 & Hun & Hret).
  injection Hun as <- _.
  do 3 skip Hret.
  peel Hret as Hloop. clear Hret.
  replace (seqZ 0 T) with (0 :: seqZ 1 (T - 1)) in Hloop.
  2:{ by rewrite (seqZ_cons 0 T) by lia. }
  simpl in Hloop.
  peel Hloop as Hturn.
  unfold MSTGCNBlock.time_step_body in Hturn.
  do 5 skip Hturn.
  peel Hturn as Hcheb. by eapply getattr_returns.
Qed.

Lemma signature_first rnd in_channels K nb_chev_filter nb_time_filter
    time_strides :
  signature_of (MSTGCNBlock.__init__ rnd in_channels K nb_chev_filter
                  nb_time_filter time_strides)
  = Some (mkSignature in_channels nb_time_filter time_strides).
Proof.
  unfold signature_of.
  destruct (block_attributes rnd in_channels K nb_chev_filter nb_time_filter
              time_strides) as (-> & -> & -> & -> & _).
  simpl. rewrite decide_True; [reflexivity | done].
Qed.

Lemma time_len_after_block rnd in_channels K nb_chev_filter nb_time_filter
    time_strides T :
  time_len_after (MSTGCNBlock.__init__ rnd in_channels K nb_chev_filter
                    nb_time_filter time_strides) T
  = conv_axis T 3 time_strides 1.
Proof. reflexivity. Qed.

Lemma chain_time_len_keep (blocks : list (gmap string attr)) T :
  Forall (λ b, ∀ T', 1 ≤ T' → time_len_after b T' = Some T') blocks →
  1 ≤ T →
  chain_time_len blocks T = Some T.
Proof.
  intros Hall HT. induction Hall as [|b blocks Hb _ IH]; simpl;
    [reflexivity|].
  rewrite Hb by exact HT. exact IH.
Qed.

Lemma later_block_keeps_time rnd in_channels K nb_chev_filter nb_time_filter
    T :
  1 ≤ T →
  time_len_after (MSTGCNBlock.__init__ rnd in_channels K nb_chev_filter
                    nb_time_filter 1) T = Some T.
Proof.
  intros HT. rewrite time_len_after_block, conv_axis_time by lia.
  by rewrite ceil_div_1.
Qed.

End Attributes.

(** Were [x] bound to the input, the next failure would be the read of
    [self.cheb_conv], in either connectivity mode. *)
Example forward_with_x_bound_static :
  @MSTGCNBlock.forward_in ShapeTorch.shapes
    (@globals_with_x ShapeTorch.shapes scenario_X) (scenario_block 2)
    scenario_X scenario_static scenario_state
  = (Raise (AttributeError "cheb_conv"),
     mkState scenario_instance
       ["LaplacianLambdaMax"; "permute"; "reshape"; "permute"]).
Proof. reflexivity. Qed.

Example forward_with_x_bound_per_step :
  @MSTGCNBlock.forward_in ShapeTorch.shapes
    (@globals_with_x ShapeTorch.shapes scenario_X) (scenario_block 2)
    scenario_X scenario_per_step scenario_state
  = (Raise (AttributeError "cheb_conv"),
     mkState scenario_instance ["LaplacianLambdaMax"]).
Proof. reflexivity. Qed.

(** With [x] bound and the five names aliased, a block returns, and so
    does a one-block stack: the shapes are those the docstrings give. *)
Example aliased_block_returns :
  (@MSTGCNBlock.forward_in ShapeTorch.shapes scenario_globals
     (@with_read_names ShapeTorch.shapes (scenario_block 2))
     scenario_X scenario_static aliased_state).1
  = Ok [2; 5; 8; 6].
Proof. reflexivity. Qed.

Example aliased_one_block_stack_returns :
  (@MSTGCN.forward_in ShapeTorch.shapes scenario_globals scenario_X
     scenario_static
     (mkState
        (<["_blocklist" :=
             AModuleList
               [@with_read_names ShapeTorch.shapes (scenario_block 2)]]>
           scenario_instance) [])).1
  = Ok [2; 5; 3].
Proof. reflexivity. Qed.

(** A failure of the spectral estimate in the first block, here an edge
    that names a node the graph does not have, leaves the stack as the
    exception the estimate raised. *)
Example aliased_stack_spectral_failure :
  (@MSTGCN.forward_in ShapeTorch.shapes scenario_globals scenario_X
     (@Static ShapeTorch.shapes [(0, 1); (1, 7)]) aliased_state)
  = (Raise IndexError, mkState aliased_instance ["LaplacianLambdaMax"]).
Proof. reflexivity. Qed.

(** ** The claims *)

(** C3.  The name [x] is bound neither by the module nor by the
    builtins, so every call of [MSTGCNBlock.forward], on every instance,
    input and connectivity, raises [NameError] for [x] with no library
    call made.  An instance built by [__init__] has none of the
    attributes [cheb_conv], [nb_time_filter], [time_conv],
    [residual_conv], [layer_norm], but each of them under its
    underscore-prefixed name.  Hence every call of [MSTGCN.forward] on a
    constructed model raises the same error.  The body does read those
    five attributes: whatever the globals bind, a call that returns has
    found [time_conv], [residual_conv] and [layer_norm] on the instance,
    [cheb_conv] and [nb_time_filter] too when the connectivity is one
    edge list, and [cheb_conv] when it is a list and there is at least
    one time step. *)
Theorem forward_raises_name_error `{Torch} :
  (module_globals !! "x" = None ∧ "x" ∉ builtins)
  ∧ (∀ self X edge_index s,
       MSTGCNBlock.forward self X edge_index s = (Raise (NameError "x"), s))
  ∧ (∀ rnd in_channels K nb_chev_filter nb_time_filter time_strides name,
       name ∈ ["cheb_conv"; "nb_time_filter"; "time_conv"; "residual_conv";
               "layer_norm"] →
       let self := MSTGCNBlock.__init__ rnd in_channels K nb_chev_filter
                     nb_time_filter time_strides in
       self !! name = None ∧ is_Some (self !! ("_" +:+ name)))
  ∧ (∀ rnd rnd_final nb_block in_channels K nb_chev_filter nb_time_filter
       time_strides num_for_predict len_input m X edge_index trace,
       MSTGCN.__init__ rnd rnd_final nb_block in_channels K nb_chev_filter
         nb_time_filter time_strides num_for_predict len_input = Ok m →
       MSTGCN.forward X edge_index (mkState m trace)
       = (Raise (NameError "x"), mkState m trace))
  ∧ (∀ G (self : gmap string attr) X edge_index s,
       is_ok (MSTGCNBlock.forward_in G self X edge_index s).1 = true →
       is_Some (self !! "time_conv")
       ∧ is_Some (self !! "residual_conv")
       ∧ is_Some (self !! "layer_norm")
       ∧ (∀ E, edge_index = Static E →
            is_Some (self !! "cheb_conv")
            ∧ is_Some (self !! "nb_time_filter"))
       ∧ (∀ Es t B N F T,
            edge_index = TimeVarying Es →
            G !! "x" = Some (PTensor t) →
            tensor_shape t = [B; N; F; T] →
            1 ≤ T →
            is_Some (self !! "cheb_conv"))).
Proof.
  split; [apply x_is_unbound|].
  split; [intros; apply block_forward_raises|].
  split; [intros; by apply block_unprefixed_missing|].
  split.
  - intros * Hinit. apply init_inv in Hinit as (depth & _ & Hbl & _).
    unfold blocklist_of in Hbl.
    destruct (m !! "_blocklist") as [[l|c]|] eqn:Hm; try discriminate.
    injection Hbl as ->. by eapply model_forward_raises.
  - intros G self X edge_index s Hret.
    apply forward_in_reads_tail in Hret as (Hgcn & Htc & Hrc & Hln).
    repeat (split; [assumption|]). split.
    + intros E ->. by eapply cheb_gcn_reads_static.
    + intros Es t B N F T -> HG Hsh HT.
      by eapply cheb_gcn_reads_per_step.
Qed.

Lemma forward_raises_name_error_witness :
  (scenario_model = Ok scenario_instance
   ∧ @MSTGCN.forward ShapeTorch.shapes scenario_X scenario_static
       scenario_state
     = (Raise (NameError "x"), scenario_state))
  ∧ (is_ok (@MSTGCNBlock.forward_in ShapeTorch.shapes scenario_globals
              (@with_read_names ShapeTorch.shapes (scenario_block 2))
              scenario_X scenario_static aliased_state).1 = true
     ∧ is_Some (@with_read_names ShapeTorch.shapes (scenario_block 2)
                  !! "time_conv")
     ∧ is_Some (@with_read_names ShapeTorch.shapes (scenario_block 2)
                  !! "residual_conv")
     ∧ is_Some (@with_read_names ShapeTorch.shapes (scenario_block 2)
                  !! "layer_norm")).
Proof.
  split.
  - split; [reflexivity|].
    apply (proj1 (proj2 (proj2 (proj2
             (@forward_raises_name_error ShapeTorch.shapes))))
             (λ _, unit_draw) () 2 2 3 8 8 2 3 12).
    reflexivity.
  - assert (is_ok (@MSTGCNBlock.forward_in ShapeTorch.shapes
                     scenario_globals
                     (@with_read_names ShapeTorch.shapes (scenario_block 2))
                     scenario_X scenario_static aliased_state).1 = true)
      as Hret by (reflexivity).
    split; [exact Hret|].
    destruct (proj2 (proj2 (proj2 (proj2
                (@forward_raises_name_error ShapeTorch.shapes))))
                _ _ _ _ _ Hret) as (Htc & Hrc & Hln & _).
    repeat split; assumption.
Defined.

(** C7.  A model constructed with [nb_block >= 1] holds exactly
    [nb_block] blocks.  The first maps [in_channels] to [nb_time_filter]
    channels with stride [time_strides]; every later one maps
    [nb_time_filter] to [nb_time_filter] channels with stride 1 and
    leaves every time length of at least one step as it is. *)
Theorem blocklist_wiring `{Torch} rnd rnd_final nb_block in_channels K
    nb_chev_filter nb_time_filter time_strides num_for_predict len_input m :
  1 ≤ nb_block →
  MSTGCN.__init__ rnd rnd_final nb_block in_channels K nb_chev_filter
    nb_time_filter time_strides num_for_predict len_input = Ok m →
  ∃ first rest,
    blocklist_of m = Some (first :: rest)
    ∧ Z.of_nat (length (first :: rest)) = nb_block
    ∧ signature_of first
      = Some (mkSignature in_channels nb_time_filter time_strides)
    ∧ ∀ b, b ∈ rest →
        signature_of b = Some (mkSignature nb_time_filter nb_time_filter 1)
        ∧ ∀ T, 1 ≤ T → time_len_after b T = Some T.
Proof.
  intros Hnb Hinit. apply init_inv in Hinit as (depth & _ & Hbl & _).
  eexists _, _. split; [exact Hbl|].
  split; [simpl; rewrite length_fmap, length_seq; lia|].
  split; [apply signature_first|].
  intros b (i & -> & _)%list_elem_of_fmap.
  split; [apply signature_first|].
  intros T HT. by apply later_block_keeps_time.
Qed.

Lemma blocklist_wiring_witness :
  1 ≤ 2
  ∧ scenario_model = Ok scenario_instance
  ∧ ∃ first rest,
      blocklist_of scenario_instance = Some (first :: rest)
      ∧ Z.of_nat (length (first :: rest)) = 2
      ∧ signature_of first = Some (mkSignature 2 8 2)
      ∧ ∀ b, b ∈ rest →
          signature_of b = Some (mkSignature 8 8 1)
          ∧ ∀ T, 1 ≤ T → time_len_after b T = Some T.
Proof.
  split; [lia|]. split; [reflexivity|].
  apply (@blocklist_wiring ShapeTorch.shapes (λ _, unit_draw) ()
           2 2 3 8 8 2 3 12); [lia | reflexivity].
Defined.

(** C6, as amended.  When [time_strides >= 1] divides [len_input], with
    [1 <= len_input < 2^52], the input depth declared for the fusion
    convolution, [int(len_input / time_strides)], is the time length the
    temporal convolutions of the blocks produce from an input of length
    [len_input]; and the kernel of the fusion convolution is
    [(1, nb_time_filter)]: height 1, width [nb_time_filter]. *)
Theorem fusion_conv_wiring `{Torch} rnd rnd_final nb_block in_channels K
    nb_chev_filter nb_time_filter time_strides num_for_predict len_input m :
  MSTGCN.__init__ rnd rnd_final nb_block in_channels K nb_chev_filter
    nb_time_filter time_strides num_for_predict len_input = Ok m →
  1 ≤ time_strides → 1 ≤ len_input → len_input < 2 ^ 52 →
  (time_strides | len_input) →
  depth_is_time_len m len_input
  ∧ model_time_len m len_input = Some (len_input / time_strides)
  ∧ conv_kernel_size <$> final_conv_of m = Some (1, nb_time_filter).
Proof.
  intros Hinit Hs Hlen Hbound Hdiv.
  apply init_inv in Hinit as (depth & Hdepth & Hbl & Hfc).
  rewrite int_truediv_exact in Hdepth by lia. injection Hdepth as <-.
  assert (model_time_len m len_input = Some (len_input / time_strides))
    as Hlen_out.
  { unfold model_time_len. rewrite Hbl. simpl.
    rewrite time_len_after_block, conv_axis_time by lia. simpl.
    rewrite chain_time_len_keep.
    - f_equal. apply ceil_div_exact; [lia | lia | exact Hdiv].
    - apply Forall_fmap, Forall_forall. intros i _ T HT. simpl.
      by apply later_block_keeps_time.
    - apply ceil_div_pos; lia. }
  split; [|split; [exact Hlen_out|]].
  - unfold depth_is_time_len. rewrite Hlen_out, Hfc. reflexivity.
  - rewrite Hfc. reflexivity.
Qed.

Lemma fusion_conv_wiring_witness :
  scenario_model = Ok scenario_instance
  ∧ 1 ≤ 2 ∧ 1 ≤ 12 ∧ 12 < 2 ^ 52 ∧ (2 | 12)
  ∧ depth_is_time_len scenario_instance 12
  ∧ model_time_len scenario_instance 12 = Some (12 / 2)
  ∧ conv_kernel_size <$> final_conv_of scenario_instance = Some (1, 8).
Proof.
  split; [reflexivity|]. split; [lia|]. split; [lia|].
  split; [lia|].
  assert (2 | 12) as Hdiv by (exists 6; reflexivity).
  split; [exact Hdiv|].
  apply (@fusion_conv_wiring ShapeTorch.shapes (λ _, unit_draw) ()
           2 2 3 8 8 2 3 12);
    [reflexivity | lia | lia | lia | exact Hdiv].
Defined.

(** C6, as stated, fails.  With stride 5 and input length 12 the fusion
    convolution declares depth 2 while the blocks produce time length 3,
    and its kernel height is 1, not the 8 time filters. *)
Lemma stride5_breaks_fusion_wiring :
  stride5_model = Ok stride5_instance
  ∧ ¬ depth_is_time_len stride5_instance 12
  ∧ ¬ kernel_height_is stride5_instance 8.
Proof.
  split; [reflexivity|]. split.
  - unfold depth_is_time_len. vm_compute. intros Heq. discriminate Heq.
  - unfold kernel_height_is. vm_compute. intros Heq. discriminate Heq.
Qed.

(** C9.  Whatever the globals of the module bind, so whether the blocks
    return or raise and whichever exception they raise: when the blocks
    before some block return and that block raises, [MSTGCN.forward]
    raises the same exception and stops in the state the block left.
    Nothing runs after the failure and no tensor is returned.  The
    method of the module is the case of the module's own globals. *)
Theorem forward_propagates_block_failure `{Torch}
    G s pre b post X X' edge_index e s1 s2 :
  blocklist_of (st_model s) = Some (pre ++ b :: post) →
  for_each (λ X block, MSTGCNBlock.forward_in G block X edge_index) pre X s
  = (Ok X', s1) →
  MSTGCNBlock.forward_in G b X' edge_index s1 = (Raise e, s2) →
  MSTGCN.forward_in G X edge_index s = (Raise e, s2)
  ∧ (G = module_globals → MSTGCN.forward X edge_index s = (Raise e, s2)).
Proof.
  intros Hbl Hpre Hb. unfold blocklist_of in Hbl.
  destruct (st_model s !! "_blocklist") as [[l|c]|] eqn:Hm; try discriminate.
  injection Hbl as ->.
  assert (MSTGCN.forward_in G X edge_index s = (Raise e, s2)) as Hfwd.
  { unfold MSTGCN.forward_in.
    rewrite (bind_ok this _ s (st_model s) s) by reflexivity.
    erewrite (bind_ok (getattr (st_model s) "_blocklist"
                         ≫= MSTGCN.as_blocks));
      [|unfold getattr; rewrite Hm; reflexivity].
    apply bind_raise. by eapply for_each_raise. }
  split; [exact Hfwd|]. intros ->. exact Hfwd.
Qed.

Lemma forward_propagates_block_failure_witness :
  blocklist_of (st_model aliased_state)
  = Some ([@with_read_names ShapeTorch.shapes (scenario_block 2)]
          ++ @with_read_names ShapeTorch.shapes
               (@MSTGCNBlock.__init__ ShapeTorch.shapes unit_draw 8 3 8 8 1)
          :: [])
  ∧ @for_each ShapeTorch.shapes _ _
      (λ X block,
         MSTGCNBlock.forward_in scenario_globals block X scenario_static)
      [@with_read_names ShapeTorch.shapes (scenario_block 2)]
      scenario_X aliased_state
    = (Ok [2; 5; 8; 6], after_first_block)
  ∧ @MSTGCNBlock.forward_in ShapeTorch.shapes scenario_globals
      (@with_read_names ShapeTorch.shapes
         (@MSTGCNBlock.__init__ ShapeTorch.shapes unit_draw 8 3 8 8 1))
      [2; 5; 8; 6] scenario_static after_first_block
    = (Raise (RuntimeError "shape"), at_second_block)
  ∧ @MSTGCN.forward_in ShapeTorch.shapes scenario_globals scenario_X
      scenario_static aliased_state
    = (Raise (RuntimeError "shape"), at_second_block).
Proof.
  assert (blocklist_of (st_model aliased_state)
          = Some ([@with_read_names ShapeTorch.shapes (scenario_block 2)]
                  ++ @with_read_names ShapeTorch.shapes
                       (@MSTGCNBlock.__init__ ShapeTorch.shapes unit_draw
                          8 3 8 8 1)
                  :: [])) as Hbl by (reflexivity).
  assert (@for_each ShapeTorch.shapes _ _
            (λ X block,
               MSTGCNBlock.forward_in scenario_globals block X
                 scenario_static)
            [@with_read_names ShapeTorch.shapes (scenario_block 2)]
            scenario_X aliased_state
          = (Ok [2; 5; 8; 6], after_first_block)) as Hpre
    by (reflexivity).
  assert (@MSTGCNBlock.forward_in ShapeTorch.shapes scenario_globals
            (@with_read_names ShapeTorch.shapes
               (@MSTGCNBlock.__init__ ShapeTorch.shapes unit_draw 8 3 8 8 1))
            [2; 5; 8; 6] scenario_static after_first_block
          = (Raise (RuntimeError "shape"), at_second_block)) as Hb
    by (reflexivity).
  split; [exact Hbl|]. split; [exact Hpre|]. split; [exact Hb|].
  exact (proj1 (@forward_propagates_block_failure ShapeTorch.shapes
                  scenario_globals aliased_state _ _ _ _ _ _ _ _ _
                  Hbl Hpre Hb)).
Defined.

(** ** Where the code departs from the claims *)

(** C1.  On a one-block model and an input of shape [(4, 3, 1, 6)] the
    call raises [NameError]: no tensor of shape [(4, 3, 2)] comes back. *)
Theorem forward_small_raises :
  @MSTGCN.__init__ ShapeTorch.shapes (λ _, unit_draw) () 1 1 2 4 4 1 2 6
  = Ok small_instance
  ∧ @MSTGCN.forward ShapeTorch.shapes small_X small_static small_state
    = (Raise (NameError "x"), small_state).
Proof. split; reflexivity. Qed.

(** C2.  In the scenario of the specification the call raises
    [NameError] before any library call. *)
Theorem forward_scenario_raises :
  scenario_model = Ok scenario_instance
  ∧ @MSTGCN.forward ShapeTorch.shapes scenario_X scenario_static
      scenario_state
    = (Raise (NameError "x"), scenario_state)
  ∧ st_trace scenario_state = [].
Proof. repeat split; reflexivity. Qed.

(** C4.  For strides 1, 2 and 3 the temporal convolution a block is
    built with would turn time length 12 into [ceil(12 / stride)], but
    the call of the block raises [NameError] and returns no tensor. *)
Theorem block_forward_strides_raise :
  Forall
    (λ stride,
       time_len_after (scenario_block stride) 12 = Some (ceil_div 12 stride)
       ∧ @MSTGCNBlock.forward ShapeTorch.shapes (scenario_block stride)
           scenario_X scenario_static scenario_state
         = (Raise (NameError "x"), scenario_state))
    [1; 2; 3].
Proof. repeat constructor. Qed.

(** C5.  With the edges passed once and with the same edges passed once
    per time step, the call raises [NameError] before it looks at the
    connectivity: neither path produces an output. *)
Theorem forward_both_modes_raise :
  @MSTGCN.forward ShapeTorch.shapes scenario_X scenario_static
    scenario_state
  = (Raise (NameError "x"), scenario_state)
  ∧ @MSTGCN.forward ShapeTorch.shapes scenario_X scenario_per_step
      scenario_state
    = (Raise (NameError "x"), scenario_state).
Proof. split; reflexivity. Qed.

(** C8.  The statements that compute [spatial_gcn] raise [NameError] in
    both connectivity modes: the intermediate tensor is never bound. *)
Theorem cheb_gcn_scenario_raises :
  @MSTGCNBlock.cheb_gcn ShapeTorch.shapes module_globals (scenario_block 2)
    scenario_static scenario_state
  = (Raise (NameError "x"), scenario_state)
  ∧ @MSTGCNBlock.cheb_gcn ShapeTorch.shapes module_globals (scenario_block 2)
      scenario_per_step scenario_state
    = (Raise (NameError "x"), scenario_state).
Proof. split; reflexivity. Qed.


(** ** Further properties of the constructors *)

(** X1.  A constructed model holds [max(1, nb_block)] blocks: the first
    block is built unconditionally, so [nb_block = 0] and negative
    [nb_block] still give one block. *)
Theorem blocklist_length `{Torch} rnd rnd_final nb_block in_channels K
    nb_chev_filter nb_time_filter time_strides num_for_predict len_input m :
  MSTGCN.__init__ rnd rnd_final nb_block in_channels K nb_chev_filter
    nb_time_filter time_strides num_for_predict len_input = Ok m →
  ∃ blocks,
    blocklist_of m = Some blocks
    ∧ Z.of_nat (length blocks) = Z.max 1 nb_block.
Proof.
  intros Hinit. apply init_inv in Hinit as (depth & _ & Hbl & _).
  eexists. split; [exact Hbl|].
  simpl. rewrite length_fmap, length_seq. lia.
Qed.

Lemma blocklist_length_witness :
  zero_block_model = Ok zero_block_instance
  ∧ ∃ blocks,
      blocklist_of zero_block_instance = Some blocks
      ∧ Z.of_nat (length blocks) = Z.max 1 0.
Proof.
  split; [reflexivity|].
  apply (@blocklist_length ShapeTorch.shapes (λ _, unit_draw) ()
           0 2 3 8 8 2 3 12).
  reflexivity.
Defined.

(** X2.  The constructor returns no instance when [time_strides = 0],
    where line 106 divides by zero, nor when [len_input / time_strides]
    is [2^1024] or more in magnitude, where the quotient is beyond the
    binary64 range. *)
Theorem init_never_returns `{Torch} rnd rnd_final nb_block in_channels K
    nb_chev_filter nb_time_filter time_strides num_for_predict len_input :
  time_strides = 0 ∨ 2 ^ 1024 * Z.abs time_strides ≤ Z.abs len_input →
  is_ok (MSTGCN.__init__ rnd rnd_final nb_block in_channels K
           nb_chev_filter nb_time_filter time_strides num_for_predict
           len_input) = false.
Proof.
  intros Hargs. unfold MSTGCN.__init__.
  destruct (decide (time_strides = 0)) as [->|Hs].
  - reflexivity.
  - destruct Hargs as [?|Hbig]; [done|].
    by rewrite int_truediv_overflow.
Qed.

Lemma init_never_returns_witness :
  (0 = 0 ∨ 2 ^ 1024 * Z.abs 0 ≤ Z.abs 12)
  ∧ is_ok (@MSTGCN.__init__ ShapeTorch.shapes (λ _, unit_draw) ()
             2 2 3 8 8 0 3 12) = false.
Proof.
  assert (0 = 0 ∨ 2 ^ 1024 * Z.abs 0 ≤ Z.abs 12) as Hargs
    by (left; reflexivity).
  split; [exact Hargs|].
  exact (@init_never_returns ShapeTorch.shapes (λ _, unit_draw) ()
           2 2 3 8 8 0 3 12 Hargs).
Defined.

(** X3.  Whatever [nb_block] is, the blocks of a model constructed with
    [time_strides >= 1] turn every time length [T >= 1] into
    [ceil(T / time_strides)]: blocks after the first do not change it. *)
Theorem model_time_len_ceil `{Torch} rnd rnd_final nb_block in_channels K
    nb_chev_filter nb_time_filter time_strides num_for_predict len_input m T :
  MSTGCN.__init__ rnd rnd_final nb_block in_channels K nb_chev_filter
    nb_time_filter time_strides num_for_predict len_input = Ok m →
  1 ≤ time_strides →
  1 ≤ T →
  model_time_len m T = Some (ceil_div T time_strides).
Proof.
  intros Hinit Hs HT. apply init_inv in Hinit as (depth & _ & Hbl & _).
  unfold model_time_len. rewrite Hbl. simpl.
  rewrite time_len_after_block, conv_axis_time by lia. simpl.
  rewrite chain_time_len_keep; [reflexivity| |apply ceil_div_pos; lia].
  apply Forall_fmap, Forall_forall. intros i _ T' HT'. simpl.
  by apply later_block_keeps_time.
Qed.

Lemma model_time_len_ceil_witness :
  stride5_model = Ok stride5_instance
  ∧ 1 ≤ 5 ∧ 1 ≤ 13
  ∧ model_time_len stride5_instance 13 = Some (ceil_div 13 5).
Proof.
  split; [reflexivity|]. split; [lia|]. split; [lia|].
  apply (@model_time_len_ceil ShapeTorch.shapes (λ _, unit_draw) ()
           2 2 3 8 8 5 3 12); [reflexivity | lia | lia].
Defined.

(** X4.  For [time_strides >= 1] and [1 <= len_input < 2^52] the fusion
    convolution declares input depth [floor(len_input / time_strides)]
    while the blocks produce [ceil(len_input / time_strides)] time
    steps.  The two agree exactly when [time_strides] divides
    [len_input]; otherwise the blocks produce one step more than the
    fusion convolution accepts. *)
Theorem fusion_depth_iff_divides `{Torch} rnd rnd_final nb_block in_channels
    K nb_chev_filter nb_time_filter time_strides num_for_predict len_input m :
  MSTGCN.__init__ rnd rnd_final nb_block in_channels K nb_chev_filter
    nb_time_filter time_strides num_for_predict len_input = Ok m →
  1 ≤ time_strides → 1 ≤ len_input → len_input < 2 ^ 52 →
  conv_in_channels <$> final_conv_of m = Some (len_input / time_strides)
  ∧ (depth_is_time_len m len_input ↔ (time_strides | len_input))
  ∧ (¬ (time_strides | len_input) →
     model_time_len m len_input = Some (len_input / time_strides + 1)).
Proof.
  intros Hinit Hs Hlen Hbound.
  pose proof (model_time_len_ceil _ _ _ _ _ _ _ _ _ _ _ len_input Hinit Hs
                Hlen) as Hchain.
  apply init_inv in Hinit as (depth & Hdepth & _ & Hfc).
  rewrite int_truediv_exact in Hdepth by lia. injection Hdepth as <-.
  assert (conv_in_channels <$> final_conv_of m
          = Some (len_input / time_strides)) as Hd
    by (by rewrite Hfc).
  pose proof (ceil_div_exact len_input time_strides ltac:(lia) ltac:(lia))
    as Hex.
  split; [exact Hd|]. split.
  - unfold depth_is_time_len. rewrite Hd, Hchain. split.
    + intros [= Heq]. by apply Hex.
    + intros Hdiv. f_equal. symmetry. by apply Hex.
  - intros Hndiv. rewrite Hchain. f_equal.
    apply ceil_div_spec; [lia|].
    pose proof (Z.div_mod len_input time_strides ltac:(lia)) as Hdm.
    pose proof (Z.mod_pos_bound len_input time_strides ltac:(lia)) as Hr.
    assert (len_input `mod` time_strides ≠ 0) as Hne.
    { intros H0. apply Hndiv. apply Z.mod_divide; [lia | exact H0]. }
    nia.
Qed.

Lemma fusion_depth_iff_divides_witness :
  stride5_model = Ok stride5_instance
  ∧ 1 ≤ 5 ∧ 1 ≤ 12 ∧ 12 < 2 ^ 52
  ∧ conv_in_channels <$> final_conv_of stride5_instance = Some (12 / 5).
Proof.
  assert (stride5_model = Ok stride5_instance) as Hinit by reflexivity.
  assert (1 ≤ 5) as Hs by lia.
  assert (1 ≤ 12) as Hlen by lia.
  assert (12 < 2 ^ 52) as Hbound by lia.
  split; [exact Hinit|]. split; [exact Hs|]. split; [exact Hlen|].
  split; [exact Hbound|].
  exact (proj1 (@fusion_depth_iff_divides ShapeTorch.shapes
                  (λ _, unit_draw) () 2 2 3 8 8 5 3 12 stride5_instance
                  Hinit Hs Hlen Hbound)).
Defined.

(** X5.  In a block built from positive arguments the temporal
    convolution and the residual projection have the same output
    channels and change a (nodes, time) extent in the same way: with at
    least one node and one time step the node axis is kept and the time
    axis becomes [ceil(T / time_strides)], as the addition of line 77
    needs; on an empty time axis both raise. *)
Theorem block_branches_same_extent `{Torch} rnd in_channels K nb_chev_filter
    nb_time_filter time_strides :
  1 ≤ in_channels → 1 ≤ K → 1 ≤ nb_chev_filter → 1 ≤ nb_time_filter →
  1 ≤ time_strides →
  ∃ tc rc,
    time_conv_of (MSTGCNBlock.__init__ rnd in_channels K nb_chev_filter
                    nb_time_filter time_strides) = Some tc
    ∧ residual_conv_of (MSTGCNBlock.__init__ rnd in_channels K
                          nb_chev_filter nb_time_filter time_strides)
      = Some rc
    ∧ conv_out_channels tc = conv_out_channels rc
    ∧ (∀ N T, 1 ≤ N → 1 ≤ T →
         conv_out_hw tc N T = Some (N, ceil_div T time_strides)
         ∧ conv_out_hw rc N T = Some (N, ceil_div T time_strides))
    ∧ (∀ N, conv_out_hw tc N 0 = None ∧ conv_out_hw rc N 0 = None).
Proof.
  intros _ _ _ _ Hs.
  exists (mkConv2d nb_chev_filter nb_time_filter (1, 3) (1, time_strides)
            (0, 1) (MSTGCNBlock.draw_time_conv rnd)),
         (mkConv2d in_channels nb_time_filter (1, 1) (1, time_strides)
            (0, 0) (MSTGCNBlock.draw_residual_conv rnd)).
  split; [reflexivity|]. split; [reflexivity|]. split; [reflexivity|].
  unfold conv_out_hw. cbn [conv_kernel_size conv_stride conv_padding fst snd].
  split.
  - intros N T HN HT.
    rewrite (conv_axis_residual N 1), (conv_axis_time T),
      (conv_axis_residual T) by lia.
    rewrite ceil_div_1. split; reflexivity.
  - intros N.
    rewrite (conv_axis_empty 0 3), (conv_axis_empty 0 1) by lia.
    destruct (conv_axis N 1 1 0); split; reflexivity.
Qed.

Lemma block_branches_same_extent_witness :
  1 ≤ 2 ∧ 1 ≤ 3 ∧ 1 ≤ 8 ∧ 1 ≤ 8 ∧ 1 ≤ 2
  ∧ ∃ tc rc,
      time_conv_of (scenario_block 2) = Some tc
      ∧ residual_conv_of (scenario_block 2) = Some rc
      ∧ conv_out_channels tc = conv_out_channels rc
      ∧ (∀ N T, 1 ≤ N → 1 ≤ T →
           conv_out_hw tc N T = Some (N, ceil_div T 2)
           ∧ conv_out_hw rc N T = Some (N, ceil_div T 2))
      ∧ (∀ N, conv_out_hw tc N 0 = None ∧ conv_out_hw rc N 0 = None).
Proof.
  repeat (split; [lia|]).
  apply (@block_branches_same_extent ShapeTorch.shapes unit_draw 2 3 8 8 2);
    lia.
Defined.

(** X6.  The channels of a constructed model telescope: each block in
    the list produces as many channels as the block after it takes, and
    the kernel of the fusion convolution is as wide as the channels the
    last block produces. *)
Theorem blocklist_telescopes `{Torch} rnd rnd_final nb_block in_channels K
    nb_chev_filter nb_time_filter time_strides num_for_predict len_input m :
  MSTGCN.__init__ rnd rnd_final nb_block in_channels K nb_chev_filter
    nb_time_filter time_strides num_for_predict len_input = Ok m →
  ∃ blocks c,
    blocklist_of m = Some blocks
    ∧ final_conv_of m = Some c
    ∧ (∀ i b b',
         blocks !! i = Some b → blocks !! S i = Some b' →
         ∃ sb sb',
           signature_of b = Some sb ∧ signature_of b' = Some sb'
           ∧ sig_out sb = sig_in sb')
    ∧ (∃ b sb,
         last blocks = Some b ∧ signature_of b = Some sb
         ∧ (conv_kernel_size c).2 = sig_out sb).
Proof.
  intros Hinit. apply init_inv in Hinit as (depth & _ & Hbl & Hfc).
  eexists _, _. split; [exact Hbl|]. split; [exact Hfc|].
  set (rest := (λ i, MSTGCNBlock.__init__ (rnd (S i)) nb_time_filter K
                       nb_chev_filter nb_time_filter 1)
                 <$> seq 0 (Z.to_nat (nb_block - 1))).
  assert (∀ j b, rest !! j = Some b →
            signature_of b
            = Some (mkSignature nb_time_filter nb_time_filter 1)) as Hrest.
  { intros j b Hj. apply list_lookup_fmap_Some in Hj as (k & -> & _).
    apply signature_first. }
  split.
  - intros i b b' Hb Hb'. simpl in Hb'.
    destruct i as [|i]; simpl in Hb.
    + injection Hb as <-. eexists _, _.
      split; [apply signature_first|].
      split; [by eapply Hrest|]. reflexivity.
    + eexists _, _. split; [by eapply Hrest|].
      split; [by eapply Hrest|]. reflexivity.
  - destruct (last rest) as [b|] eqn:Hlast.
    + exists b, (mkSignature nb_time_filter nb_time_filter 1).
      split; [by rewrite last_cons, Hlast|].
      rewrite last_lookup in Hlast. split; [by eapply Hrest | reflexivity].
    + eexists _, _. split; [by rewrite last_cons, Hlast|].
      split; [apply signature_first | reflexivity].
Qed.

Lemma blocklist_telescopes_witness :
  scenario_model = Ok scenario_instance
  ∧ ∃ blocks c,
      blocklist_of scenario_instance = Some blocks
      ∧ final_conv_of scenario_instance = Some c
      ∧ (∀ i b b',
           blocks !! i = Some b → blocks !! S i = Some b' →
           ∃ sb sb',
             signature_of b = Some sb ∧ signature_of b' = Some sb'
             ∧ sig_out sb = sig_in sb')
      ∧ (∃ b sb,
           last blocks = Some b ∧ signature_of b = Some sb
           ∧ (conv_kernel_size c).2 = sig_out sb).
Proof.
  split; [reflexivity|].
  apply (@blocklist_telescopes ShapeTorch.shapes (λ _, unit_draw) ()
           2 2 3 8 8 2 3 12).
  reflexivity.
Defined.

(** X7.  The fusion convolution of a constructed model has
    [num_for_predict] output channels and, on at least one node and a
    feature axis of width [nb_time_filter >= 1], keeps the node axis and
    reduces the feature axis to a single position: the index [-1] of
    line 135 selects the only position there is. *)
Theorem fusion_conv_extent `{Torch} rnd rnd_final nb_block in_channels K
    nb_chev_filter nb_time_filter time_strides num_for_predict len_input m :
  MSTGCN.__init__ rnd rnd_final nb_block in_channels K nb_chev_filter
    nb_time_filter time_strides num_for_predict len_input = Ok m →
  1 ≤ nb_time_filter →
  ∃ c,
    final_conv_of m = Some c
    ∧ conv_out_channels c = num_for_predict
    ∧ ∀ N, 1 ≤ N → conv_out_hw c N nb_time_filter = Some (N, 1).
Proof.
  intros Hinit HF. apply init_inv in Hinit as (depth & _ & _ & Hfc).
  eexists. split; [exact Hfc|]. split; [reflexivity|].
  intros N HN. unfold conv_out_hw, conv_axis.
  cbn [conv_kernel_size conv_stride conv_padding fst snd].
  rewrite !decide_True by lia. simpl. unfold conv_out_len.
  rewrite !Z.div_1_r. do 2 f_equal; lia.
Qed.

Lemma fusion_conv_extent_witness :
  scenario_model = Ok scenario_instance
  ∧ 1 ≤ 8
  ∧ ∃ c,
      final_conv_of scenario_instance = Some c
      ∧ conv_out_channels c = 3
      ∧ ∀ N, 1 ≤ N → conv_out_hw c N 8 = Some (N, 1).
Proof.
  split; [reflexivity|]. split; [lia|].
  apply (@fusion_conv_extent ShapeTorch.shapes (λ _, unit_draw) ()
           2 2 3 8 8 2 3 12); [reflexivity | lia].
Defined.

(** X8.  Whatever the global namespace binds, [x] included, the body of
    [MSTGCNBlock.forward] returns nothing on a block built by
    [__init__]: it reads [self.time_conv], which the constructor never
    sets. *)
Theorem constructed_block_never_returns `{Torch} G rnd in_channels K
    nb_chev_filter nb_time_filter time_strides X edge_index s :
  is_ok (MSTGCNBlock.forward_in G
           (MSTGCNBlock.__init__ rnd in_channels K nb_chev_filter
              nb_time_filter time_strides)
           X edge_index s).1
  = false.
Proof. apply forward_in_never_returns. reflexivity. Qed.

(** X9.  The body of [MSTGCNBlock.forward] depends on the global
    namespace only through the eight names it reads; of these, [x] is
    the only one that the module and the builtins leave unbound. *)
Theorem forward_reads_globals `{Torch} :
  (∀ G G' self X edge_index,
     (∀ n, n ∈ globals_read → G !! n = G' !! n) →
     MSTGCNBlock.forward_in G self X edge_index
     = MSTGCNBlock.forward_in G' self X edge_index)
  ∧ (∀ n s,
       n ∈ globals_read →
       is_ok (load_global module_globals n s).1 = false ↔ n = "x").
Proof.
  split.
  - intros G G' self X edge_index HG.
    assert (∀ n, n ∈ globals_read → load_global G n = load_global G' n)
      as Hload.
    { intros n Hn. unfold load_global. by rewrite (HG n Hn). }
    unfold MSTGCNBlock.forward_in, MSTGCNBlock.cheb_gcn,
      MSTGCNBlock.time_step_body.
    rewrite !(Hload "x"), !(Hload "isinstance"), !(Hload "list"),
      !(Hload "Data"), !(Hload "LaplacianLambdaMax"), !(Hload "torch"),
      !(Hload "F"), !(Hload "range")
      by (apply list_elem_of_In; simpl; tauto).
    reflexivity.
  - intros n s Hn. apply list_elem_of_In in Hn. simpl in Hn.
    destruct Hn as [<-|[<-|[<-|[<-|[<-|[<-|[<-|[<-|[]]]]]]]]];
      (split; [vm_compute; try discriminate; done | by intros [=]]).
Qed.

Lemma forward_reads_globals_witness :
  (∀ n, n ∈ globals_read →
        (@module_globals ShapeTorch.shapes) !! n = globals_with_y !! n)
  ∧ @MSTGCNBlock.forward_in ShapeTorch.shapes module_globals
      (scenario_block 2) scenario_X scenario_static
    = @MSTGCNBlock.forward_in ShapeTorch.shapes globals_with_y
        (scenario_block 2) scenario_X scenario_static.
Proof.
  assert (∀ n, n ∈ globals_read →
            (@module_globals ShapeTorch.shapes) !! n = globals_with_y !! n)
    as HG.
  { intros n Hn. apply list_elem_of_In in Hn. simpl in Hn.
    destruct Hn as [<-|[<-|[<-|[<-|[<-|[<-|[<-|[<-|[]]]]]]]]];
      reflexivity. }
  split; [exact HG|].
  apply (proj1 (@forward_reads_globals ShapeTorch.shapes)). exact HG.
Defined.

(** X10.  Every block of a constructed model, the first and the later
    ones alike, carries a graph filter of the same order [K] with
    [nb_chev_filter] outputs and no Laplacian normalization. *)
Theorem blocks_share_graph_filter `{Torch} rnd rnd_final nb_block in_channels
    K nb_chev_filter nb_time_filter time_strides num_for_predict len_input
    m :
  MSTGCN.__init__ rnd rnd_final nb_block in_channels K nb_chev_filter
    nb_time_filter time_strides num_for_predict len_input = Ok m →
  ∃ blocks,
    blocklist_of m = Some blocks
    ∧ ∀ b, b ∈ blocks →
        ∃ g,
          cheb_conv_of b = Some g
          ∧ cheb_K g = K
          ∧ cheb_out_channels g = nb_chev_filter
          ∧ cheb_normalization g = None.
Proof.
  intros Hinit. apply init_inv in Hinit as (depth & _ & Hbl & _).
  eexists. split; [exact Hbl|].
  intros b [->|(i & -> & _)%list_elem_of_fmap]%elem_of_cons;
    (eexists; split; [reflexivity|]; repeat split).
Qed.

Lemma blocks_share_graph_filter_witness :
  scenario_model = Ok scenario_instance
  ∧ ∃ blocks,
      blocklist_of scenario_instance = Some blocks
      ∧ ∀ b, b ∈ blocks →
          ∃ g,
            cheb_conv_of b = Some g
            ∧ cheb_K g = 3
            ∧ cheb_out_channels g = 8
            ∧ cheb_normalization g = None.
Proof.
  split; [reflexivity|].
  apply (@blocks_share_graph_filter ShapeTorch.shapes (λ _, unit_draw) ()
           2 2 3 8 8 2 3 12).
  reflexivity.
Defined.
